(** * lale.lib.aif360.reweighing: the Reweighing adapter

    A shallow embedding of [src/lale/lib/aif360/reweighing.py]: the
    declarative JSON schemas of the operator, and the adapter class
    [ReweighingImpl] with its methods [fit] and [predict].

    The adapter is glue around libraries that are not part of the file
    (aif360, pandas, numpy, lale.operators, the sibling modules [util] and
    [protected_attributes_encoder]).  Every call into them is modelled as a
    call to an arbitrary handler that may change the state of the outside
    world, may return and may raise; the calls are recorded in a log, so
    that the order of the calls and the data flowing between them can be
    stated. *)

From Stdlib Require Import ZArith.
From stdpp Require Import base option list strings gmap.

Set Warnings "-register-all".

Local Open Scope Z_scope.
Local Open Scope string_scope.
Local Open Scope list_scope.

(** ** JSON values, as the Python literals of the module build them *)

(** A Python dict literal is kept as an association list in source order. *)
Inductive json : Type :=
| JNull
| JBool (b : bool)
| JNum (z : Z)
| JStr (s : string)
| JArr (items : list json)
| JObj (members : list (string * json)).

(** [d[k]] on a dict: [None] stands for the [KeyError]. *)
Fixpoint dict_getitem (d : list (string * json)) (k : string) : option json :=
  match d with
  | [] => None
  | (k', v) :: d' => if decide (k' = k) then Some v else dict_getitem d' k
  end.

Definition json_getitem (j : json) (k : string) : option json :=
  match j with
  | JObj d => dict_getitem d k
  | _ => None
  end.

Definition json_keys (j : json) : list string :=
  match j with
  | JObj d => d.*1
  | _ => []
  end.

Module Schemas.

(** [{"type": "array", "items": {"type": t}}] *)
Definition array_of (t : string) : json :=
  JObj [("type", JStr "array"); ("items", JObj [("type", JStr t)])].

Definition features_schema : json :=
  JObj [("description", JStr "Features; the outer array is over samples.");
        ("type", JStr "array");
        ("items",
         JObj [("type", JStr "array");
               ("items",
                JObj [("anyOf",
                       JArr [JObj [("type", JStr "number")];
                             JObj [("type", JStr "string")]])])])].

Definition _input_fit_schema : json :=
  JObj [("description", JStr "Input data schema for training.");
        ("type", JStr "object");
        ("required", JArr [JStr "X"; JStr "y"]);
        ("additionalProperties", JBool false);
        ("properties",
         JObj [("X", features_schema);
               ("y",
                JObj [("description", JStr "The predicted classes.");
                      ("anyOf",
                       JArr [array_of "number"; array_of "string";
                             array_of "boolean"])])])].

Definition _input_predict_schema : json :=
  JObj [("description", JStr "Input data schema for transform.");
        ("type", JStr "object");
        ("required", JArr [JStr "X"]);
        ("additionalProperties", JBool false);
        ("properties", JObj [("X", features_schema)])].

Definition _output_predict_schema : json :=
  JObj [("description", JStr "The predicted classes.");
        ("anyOf",
         JArr [array_of "number"; array_of "string"; array_of "boolean"])].

Section hyperparams.
(** [_categorical_fairness_properties] is imported from [.util], which is
    not part of the file: it is a parameter.  The module reads two of its
    entries with [d[k]] while it is loaded, so a missing entry makes the
    load fail ([None]). *)
Variable _categorical_fairness_properties : list (string * json).

Definition _hyperparams_schema : option json :=
  favorable_labels ← dict_getitem _categorical_fairness_properties "favorable_labels";
  protected_attributes ← dict_getitem _categorical_fairness_properties "protected_attributes";
  Some (JObj
    [("description", JStr "Hyperparameter schema.");
     ("allOf",
      JArr [JObj
        [("type", JStr "object");
         ("additionalProperties", JBool false);
         ("required",
          JArr [JStr "estimator"; JStr "favorable_labels";
                JStr "protected_attributes"]);
         ("relevantToOptimizer", JArr []);
         ("properties",
          JObj [("estimator",
                 JObj [("description",
                        JStr "Nested classifier, fit method must support sample_weight.");
                       ("laleType", JStr "operator")]);
                ("favorable_labels", favorable_labels);
                ("protected_attributes", protected_attributes)])]])]).

Definition _combined_schemas : option json :=
  hyperparams ← _hyperparams_schema;
  Some (JObj
    [("description",
      JStr "`Reweighing`_ preprocessor for fairness mitigation.

.. _`Reweighing`: https://aif360.readthedocs.io/en/latest/modules/generated/aif360.sklearn.preprocessing.Reweighing.html
");
     ("documentation_url",
      JStr "https://lale.readthedocs.io/en/latest/modules/lale.lib.aif360.reweighing.html");
     ("import_from", JStr "aif360.sklearn.preprocessing");
     ("type", JStr "object");
     ("tags",
      JObj [("pre", JArr []);
            ("op", JArr [JStr "estimator"; JStr "classifier"]);
            ("post", JArr [])]);
     ("properties",
      JObj [("hyperparams", hyperparams);
            ("input_fit", _input_fit_schema);
            ("input_predict", _input_predict_schema);
            ("output_predict", _output_predict_schema)])]).

End hyperparams.

End Schemas.

(** ** The adapter class *)

(** Object identities of the adapter instances. *)
Definition loc : Type := positive.

(** The values and the pure observations of the outside libraries are kept
    abstract: exceptions, the state of the outside world, label values,
    column names, the privileged groups of a protected attribute, numpy
    arrays, the index and name of a pandas Series, feature tables, the
    objects of [ProtectedAttributesEncoder], [_PandasToDatasetConverter] and
    [aif360.algorithms.preprocessing.Reweighing], aif360 datasets, weight
    vectors, lale operators and predictions; and the attribute reads
    [X.shape], [dataset.instance_weights] and the type test
    [isinstance(op, lale.operators.TrainablePipeline)], each a function of
    the value it is made on. *)
Class Libraries : Type := {
  Exc : Type;
  World : Type;
  Label : Type;
  Feature : Type;
  PrivilegedGroups : Type;
  NdArray : Type;
  SeriesMeta : Type;
  Table : Type;
  Encoder : Type;
  Converter : Type;
  Dataset : Type;
  Weights : Type;
  Reweighing : Type;
  Operator : Type;
  Prediction : Type;
  Label_eq_dec :: EqDecision Label;
  Feature_eq_dec :: EqDecision Feature;
  Feature_countable :: Countable Feature;
  shape : Table → nat * nat;
  instance_weights : Dataset → Weights;
  isinstance_TrainablePipeline : Operator → bool
}.

Section adapter.
Context `{Libraries}.

(** A pandas Series: its values in order, and the rest of it (index, name). *)
Record Series (A : Type) : Type := mkSeries {
  series_meta : SeriesMeta;
  series_values : list A
}.
Arguments mkSeries {A} _ _.
Arguments series_meta {A} _.
Arguments series_values {A} _.

(** [s.apply(f)]: [f] on every value, index and name kept. *)
Definition Series_apply {A B : Type} (f : A → B) (s : Series A) : Series B :=
  mkSeries (series_meta s) (f <$> series_values s).

(** The label argument [y]: [isinstance(y, np.ndarray)] tells the two apart. *)
Inductive Labels : Type :=
| np_ndarray (a : NdArray)
| pd_Series (s : Series Label).

(** An entry of the [protected_attributes] hyperparameter, a dict read at
    its key ["feature"]. *)
Record ProtectedAttribute : Type := mkProtectedAttribute {
  feature : Feature;
  privileged_groups_of : PrivilegedGroups
}.

(** The instance fields that [__init__] sets. *)
Record ReweighingImpl : Type := mkReweighingImpl {
  estimator : Operator;
  favorable_labels : list Label;
  protected_attributes : list ProtectedAttribute
}.

(** The calls that leave the file, each with the type of what it returns. *)
Inductive call : Type → Type :=
| ProtectedAttributesEncoder_init (pas : list ProtectedAttribute) : call Encoder
| ProtectedAttributesEncoder_transform (enc : Encoder) (X : Table) : call Table
| _ndarray_to_series (data : NdArray) (name : nat) : call (Series Label)
| _PandasToDatasetConverter_init (favorable_label unfavorable_label : Z)
    (protected_attribute_names : list Feature) : call Converter
| _PandasToDatasetConverter_call (conv : Converter) (X : Table) (y : Series Z) : call Dataset
| Reweighing_init (unprivileged_groups privileged_groups : list (gmap Feature Z)) : call Reweighing
| Reweighing_fit (rw : Reweighing) (dataset : Dataset) : call Reweighing
| Reweighing_transform (rw : Reweighing) (dataset : Dataset) : call Dataset
| remove_last (pipeline : Operator) : call Operator
| get_last (pipeline : Operator) : call Operator
| Operator_fit (op : Operator) (X : Table) (y : Labels) (sample_weight : option Weights) : call Operator
| Operator_transform (op : Operator) (X : Table) : call Table
| Operator_rshift (op1 op2 : Operator) : call Operator
| Operator_predict (op : Operator) (X : Table) : call Prediction.

(** What the outside does on a call: a new state of the world, and a value
    or an exception.  A call sees the outside world and its arguments only:
    none is passed the adapter or a binding of the module. *)
Variable handler : ∀ A : Type, call A → World → (Exc + A) * World.

(** One finished call: what was called and how it ended. *)
Inductive entry : Type :=
| Entry {A : Type} (c : call A) (r : Exc + A).


(** The state a statement runs in: the adapter objects by identity, the
    module-level bindings of the file, the outside world, and the calls made
    so far, oldest first. *)
Record PyState : Type := mkPyState {
  heap : gmap loc ReweighingImpl;
  module_globals : gmap string json;
  world : World;
  log : list entry
}.

(** How a statement ends.  [Stuck] is an attribute access on an object that
    is not allocated, which no Python program reaches. *)
Inductive outcome (A : Type) : Type :=
| Returns (a : A)
| Raises (e : Exc)
| Stuck.
Arguments Returns {A} a.
Arguments Raises {A} e.
Arguments Stuck {A}.

(** Statements: state in, state out, also when an exception is raised. *)
Definition M (A : Type) : Type := PyState → outcome A * PyState.

#[local] Instance M_ret : MRet M := λ A a σ, (Returns a, σ).

#[local] Instance M_bind : MBind M := λ A B k m σ,
  match m σ with
  | (Returns a, σ') => k a σ'
  | (Raises e, σ') => (Raises e, σ')
  | (Stuck, σ') => (Stuck, σ')
  end.

Definition extern {A : Type} (c : call A) : M A := λ σ,
  let '(r, w) := handler A c (world σ) in
  (match r with inl e => Raises e | inr a => Returns a end,
   mkPyState (heap σ) (module_globals σ) w (log σ ++ [Entry c r])).

(** [self.field] *)
Definition getattr {A : Type} (self : loc) (field : ReweighingImpl → A) : M A := λ σ,
  match heap σ !! self with
  | Some obj => (Returns (field obj), σ)
  | None => (Stuck, σ)
  end.

(** [self.estimator = v] *)
Definition setattr_estimator (self : loc) (v : Operator) : M unit := λ σ,
  match heap σ !! self with
  | Some obj =>
      (Returns (),
       mkPyState
         (<[self := mkReweighingImpl v (favorable_labels obj) (protected_attributes obj)]> (heap σ))
         (module_globals σ) (world σ) (log σ))
  | None => (Stuck, σ)
  end.

(** [ReweighingImpl(estimator, favorable_labels, protected_attributes)]: a
    new object, whose three fields [__init__] sets from its arguments. *)
Definition __init__ (estimator : Operator) (favorable_labels : list Label)
    (protected_attributes : list ProtectedAttribute) : M loc := λ σ,
  let self := fresh (dom (heap σ)) in
  (Returns self,
   mkPyState
     (<[self := mkReweighingImpl estimator favorable_labels protected_attributes]> (heap σ))
     (module_globals σ) (world σ) (log σ)).

(** Modelled from the spec: [_group_flag] is imported from [.util], which is
    not among the sources.  The spec has the labels binarized into a
    favorable and an unfavorable group, a favorable label being an outcome
    class treated as the desired prediction: a value is flagged 1 when it is
    one of the favorable labels and 0 when it is not. *)
Definition _group_flag (value : Label) (groups : list Label) : Z :=
  if decide (value ∈ groups) then 1 else 0.

(** [{pa["feature"]: v for pa in protected_attributes}]: keys are entered in
    list order, a later entry for the same key replaces the earlier one. *)
Definition group_dict (v : Z) (pas : list ProtectedAttribute) : gmap Feature Z :=
  foldl (λ d pa, <[feature pa := v]> d) ∅ pas.

Definition fit (self : loc) (X : Table) (y : Labels) : M loc :=
  pas ← getattr self protected_attributes;
  prot_attr_enc ← extern (ProtectedAttributesEncoder_init pas);
  encoded_X ← extern (ProtectedAttributesEncoder_transform prot_attr_enc X);
  encoded_y ← match y with
              | np_ndarray a => extern (_ndarray_to_series a (shape X).2)
              | pd_Series s => mret s
              end;
  (* the lambda reads [self.favorable_labels]; no statement in between
     writes the field, so one read stands for the read at each value *)
  fav ← getattr self favorable_labels;
  let encoded_y := Series_apply (λ v, _group_flag v fav) encoded_y in
  pas ← getattr self protected_attributes;
  let pans := feature <$> pas in
  pandas_to_dataset ← extern (_PandasToDatasetConverter_init 1 0 pans);
  encoded_data ← extern (_PandasToDatasetConverter_call pandas_to_dataset encoded_X encoded_y);
  pas ← getattr self protected_attributes;
  let unpriv_groups := [group_dict 0 pas] in
  pas ← getattr self protected_attributes;
  let priv_groups := [group_dict 1 pas] in
  reweighing_trainable ← extern (Reweighing_init unpriv_groups priv_groups);
  reweighing_trained ← extern (Reweighing_fit reweighing_trainable encoded_data);
  reweighted_data ← extern (Reweighing_transform reweighing_trained encoded_data);
  let sample_weight := instance_weights reweighted_data in
  est ← getattr self estimator;
  (if isinstance_TrainablePipeline est then
     est ← getattr self estimator;
     trainable_prefix ← extern (remove_last est);
     est ← getattr self estimator;
     trainable_suffix ← extern (get_last est);
     trained_prefix ← extern (Operator_fit trainable_prefix X y None);
     transformed_X ← extern (Operator_transform trained_prefix X);
     trained_suffix ← extern (Operator_fit trainable_suffix transformed_X y (Some sample_weight));
     composed ← extern (Operator_rshift trained_prefix trained_suffix);
     setattr_estimator self composed
   else
     est ← getattr self estimator;
     trained ← extern (Operator_fit est X y (Some sample_weight));
     setattr_estimator self trained);;
  mret self.

Definition predict (self : loc) (X : Table) : M Prediction :=
  est ← getattr self estimator;
  result ← extern (Operator_predict est X);
  mret result.

(** ** The procedure of the spec, as a set of call traces *)

(** A call comes next: it raises and the trace ends there with that
    exception, or it returns [a] and the trace goes on as [k a] says. *)
Inductive then_call {A R : Type} (c : call A)
    (k : A → list entry → outcome R → Prop) : list entry → outcome R → Prop :=
| call_raises (e : Exc) :
    then_call c k [Entry c (inl e)] (Raises e)
| call_returns (a : A) (t : list entry) (o : outcome R) :
    k a t o → then_call c k (Entry c (inr a) :: t) o.

(** Nothing more is called; the result is [r]. *)
Definition finished {R : Type} (r : R) (t : list entry) (o : outcome R) : Prop :=
  t = [] ∧ o = Returns r.

Section procedure.
Context {R : Type}.
Variable obj : ReweighingImpl.
Variable X : Table.
Variable y : Labels.

(** Encode the protected attributes of [X]. *)
Definition encode_protected_attributes
    (k : Table → list entry → outcome R → Prop) : list entry → outcome R → Prop :=
  then_call (ProtectedAttributesEncoder_init (protected_attributes obj)) (λ encoder,
  then_call (ProtectedAttributesEncoder_transform encoder X) k).

(** The labels as a Series: [y] itself, or what [_ndarray_to_series] makes of
    a numpy array under the name [X.shape[1]]. *)
Definition labels_as_series
    (k : Series Label → list entry → outcome R → Prop) : list entry → outcome R → Prop :=
  match y with
  | np_ndarray a => then_call (_ndarray_to_series a (shape X).2) k
  | pd_Series s => k s
  end.

(** Binarize the labels into the favorable (1) and the unfavorable (0) group. *)
Definition binarize_labels
    (k : Series Z → list entry → outcome R → Prop) : list entry → outcome R → Prop :=
  labels_as_series (λ labels,
  k (Series_apply (λ v, if decide (v ∈ favorable_labels obj) then 1 else 0) labels)).

(** Build the aif360 dataset with favorable label 1 and unfavorable label 0,
    then fit the reweighing routine on it and transform it, with one
    unprivileged group (every protected feature 0) and one privileged group
    (every protected feature 1). *)
Definition reweighing_fit_transform (encoded_X : Table) (encoded_y : Series Z)
    (k : Dataset → list entry → outcome R → Prop) : list entry → outcome R → Prop :=
  then_call (_PandasToDatasetConverter_init 1 0 (feature <$> protected_attributes obj)) (λ converter,
  then_call (_PandasToDatasetConverter_call converter encoded_X encoded_y) (λ encoded_data,
  then_call (Reweighing_init [group_dict 0 (protected_attributes obj)]
                             [group_dict 1 (protected_attributes obj)]) (λ reweighing,
  then_call (Reweighing_fit reweighing encoded_data) (λ trained,
  then_call (Reweighing_transform trained encoded_data) k)))).

(** Fit the estimator with the weights; of a pipeline, the last stage only. *)
Definition fit_final_estimator (sample_weight : Weights)
    (k : Operator → list entry → outcome R → Prop) : list entry → outcome R → Prop :=
  if isinstance_TrainablePipeline (estimator obj) then
    then_call (remove_last (estimator obj)) (λ prefix,
    then_call (get_last (estimator obj)) (λ last,
    then_call (Operator_fit prefix X y None) (λ trained_prefix,
    then_call (Operator_transform trained_prefix X) (λ transformed_X,
    then_call (Operator_fit last transformed_X y (Some sample_weight)) (λ trained_last,
    then_call (Operator_rshift trained_prefix trained_last) k)))))
  else
    then_call (Operator_fit (estimator obj) X y (Some sample_weight)) k.

End procedure.

(** The traces of the linear procedure, with the trained estimator it ends
    with or the exception that ended it. *)
Definition linear_procedure (obj : ReweighingImpl) (X : Table) (y : Labels)
    : list entry → outcome Operator → Prop :=
  encode_protected_attributes obj X (λ encoded_X,
  binarize_labels obj X y (λ encoded_y,
  reweighing_fit_transform obj encoded_X encoded_y (λ reweighted_data,
  (* extract the instance weights *)
  let sample_weight := instance_weights reweighted_data in
  fit_final_estimator obj X y sample_weight finished))).

(** ** Reading the log *)

(** The [sample_weight] keyword of a call to an operator's [fit]. *)
Definition sample_weight_kwarg (e : entry) : option Weights :=
  match e with
  | Entry c _ => match c with Operator_fit _ _ _ sw => sw | _ => None end
  end.

(** The operator, the features and the keyword of a call to an operator's
    [fit]. *)
Definition operator_fit_args (e : entry) : option (Operator * Table * option Weights) :=
  match e with
  | Entry c _ => match c with Operator_fit op X _ sw => Some (op, X, sw) | _ => None end
  end.

(** The dataset that a call to [Reweighing.transform] returned. *)
Definition reweighted_dataset (e : entry) : option Dataset :=
  match e with
  | Entry c r =>
      match c in call A return Exc + A → option Dataset with
      | Reweighing_transform _ _ => λ r, match r with inr d => Some d | inl _ => None end
      | _ => λ _, None
      end r
  end.

(** The groups a [Reweighing] object is made with. *)
Definition reweighing_groups (e : entry)
    : option (list (gmap Feature Z) * list (gmap Feature Z)) :=
  match e with
  | Entry c _ => match c with Reweighing_init u p => Some (u, p) | _ => None end
  end.

(** The favorable and the unfavorable label a converter is made with, and
    the converter. *)
Definition converter_made (e : entry) : option (Z * Z * Converter) :=
  match e with
  | Entry c r =>
      match c in call A return Exc + A → option (Z * Z * Converter) with
      | _PandasToDatasetConverter_init f u _ =>
          λ r, match r with inr conv => Some (f, u, conv) | inl _ => None end
      | _ => λ _, None
      end r
  end.

(** A finished conversion: the converter, the labels it was given and the
    dataset it returned. *)
Definition dataset_made (e : entry) : option (Converter * Series Z * Dataset) :=
  match e with
  | Entry c r =>
      match c in call A return Exc + A → option (Converter * Series Z * Dataset) with
      | _PandasToDatasetConverter_call conv _ ey =>
          λ r, match r with inr d => Some (conv, ey, d) | inl _ => None end
      | _ => λ _, None
      end r
  end.

(** The labels a converter is called with. *)
Definition converter_labels (e : entry) : option (Series Z) :=
  match e with
  | Entry c _ => match c with _PandasToDatasetConverter_call _ _ ey => Some ey | _ => None end
  end.

(** The Series that [_ndarray_to_series] returned. *)
Definition series_made (e : entry) : option (Series Label) :=
  match e with
  | Entry c r =>
      match c in call A return Exc + A → option (Series Label) with
      | _ndarray_to_series _ _ => λ r, match r with inr s => Some s | inl _ => None end
      | _ => λ _, None
      end r
  end.

(** The dataset handed to the reweighing routine, by [fit] or [transform]. *)
Definition reweighing_input (e : entry) : option Dataset :=
  match e with
  | Entry c _ =>
      match c with
      | Reweighing_fit _ d | Reweighing_transform _ d => Some d
      | _ => None
      end
  end.

(** The operator a call asks to split: the receiver of [remove_last] or
    [get_last]. *)
Definition pipeline_split (e : entry) : option Operator :=
  match e with
  | Entry c _ =>
      match c with
      | remove_last op | get_last op => Some op
      | _ => None
      end
  end.

(** The operator that a call to [fit] or to [>>] returned. *)
Definition operator_returned (e : entry) : option Operator :=
  match e with
  | Entry c r =>
      match c in call A return Exc + A → option Operator with
      | Operator_fit _ _ _ _ | Operator_rshift _ _ =>
          λ r, match r with inr op => Some op | inl _ => None end
      | _ => λ _, None
      end r
  end.


(** What [fit] leaves in the heap: the [estimator] field of [self] replaced
    when it returns, nothing changed otherwise. *)
Definition heap_after (self : loc) (obj : ReweighingImpl) (h : gmap loc ReweighingImpl)
    (o : outcome Operator) : gmap loc ReweighingImpl :=
  match o with
  | Returns trained =>
      <[self := mkReweighingImpl trained (favorable_labels obj) (protected_attributes obj)]> h
  | _ => h
  end.

Definition outcome_of_fit (self : loc) (o : outcome Operator) : outcome loc :=
  match o with
  | Returns _ => Returns self
  | Raises e => Raises e
  | Stuck => Stuck
  end.



(** ** More readers of the log *)

(** The labels of a call to an operator's [fit]. *)
Definition operator_fit_labels (e : entry) : option Labels :=
  match e with
  | Entry c _ => match c with Operator_fit _ _ y _ => Some y | _ => None end
  end.

(** The operator that a call to an operator's [fit] returned. *)
Definition operator_fitted (e : entry) : option Operator :=
  match e with
  | Entry c r =>
      match c in call A return Exc + A → option Operator with
      | Operator_fit _ _ _ _ => λ r, match r with inr op => Some op | inl _ => None end
      | _ => λ _, None
      end r
  end.

(** The operator and the features of a call to an operator's [transform]. *)
Definition operator_transform_args (e : entry) : option (Operator * Table) :=
  match e with
  | Entry c _ => match c with Operator_transform op X => Some (op, X) | _ => None end
  end.

(** The features that a call to an operator's [transform] returned. *)
Definition operator_transformed (e : entry) : option Table :=
  match e with
  | Entry c r =>
      match c in call A return Exc + A → option Table with
      | Operator_transform _ _ => λ r, match r with inr X => Some X | inl _ => None end
      | _ => λ _, None
      end r
  end.

(** The two operators of a call to [>>]. *)
Definition operator_rshift_args (e : entry) : option (Operator * Operator) :=
  match e with
  | Entry c _ => match c with Operator_rshift op1 op2 => Some (op1, op2) | _ => None end
  end.

(** The prefix that [remove_last] returned. *)
Definition prefix_made (e : entry) : option Operator :=
  match e with
  | Entry c r =>
      match c in call A return Exc + A → option Operator with
      | remove_last _ => λ r, match r with inr op => Some op | inl _ => None end
      | _ => λ _, None
      end r
  end.

(** The last stage that [get_last] returned. *)
Definition last_made (e : entry) : option Operator :=
  match e with
  | Entry c r =>
      match c in call A return Exc + A → option Operator with
      | get_last _ => λ r, match r with inr op => Some op | inl _ => None end
      | _ => λ _, None
      end r
  end.

(** The operator a call is made on, for every call on a lale operator. *)
Definition operator_called (e : entry) : option Operator :=
  match e with
  | Entry c _ =>
      match c with
      | remove_last op | get_last op | Operator_fit op _ _ _
      | Operator_transform op _ | Operator_rshift op _ | Operator_predict op _ => Some op
      | _ => None
      end
  end.

(** The array and the name of a call to [_ndarray_to_series]. *)
Definition series_conversion (e : entry) : option (NdArray * nat) :=
  match e with
  | Entry c _ => match c with _ndarray_to_series a name => Some (a, name) | _ => None end
  end.

(** The protected attributes an encoder is made with, and the encoder. *)
Definition encoder_made (e : entry) : option (list ProtectedAttribute * Encoder) :=
  match e with
  | Entry c r =>
      match c in call A return Exc + A → option (list ProtectedAttribute * Encoder) with
      | ProtectedAttributesEncoder_init pas =>
          λ r, match r with inr enc => Some (pas, enc) | inl _ => None end
      | _ => λ _, None
      end r
  end.

(** The encoder and the features of a call to the encoder's [transform]. *)
Definition encoder_transform_args (e : entry) : option (Encoder * Table) :=
  match e with
  | Entry c _ =>
      match c with ProtectedAttributesEncoder_transform enc X => Some (enc, X) | _ => None end
  end.

(** The features that the encoder's [transform] returned. *)
Definition encoded_features (e : entry) : option Table :=
  match e with
  | Entry c r =>
      match c in call A return Exc + A → option Table with
      | ProtectedAttributesEncoder_transform _ _ =>
          λ r, match r with inr X => Some X | inl _ => None end
      | _ => λ _, None
      end r
  end.

(** The features a converter is called with. *)
Definition converter_features (e : entry) : option Table :=
  match e with
  | Entry c _ => match c with _PandasToDatasetConverter_call _ X _ => Some X | _ => None end
  end.

(** The protected attribute names a converter is made with. *)
Definition converter_names (e : entry) : option (list Feature) :=
  match e with
  | Entry c _ =>
      match c with _PandasToDatasetConverter_init _ _ pans => Some pans | _ => None end
  end.

(** The [Reweighing] object that the constructor returned. *)
Definition reweighing_made (e : entry) : option Reweighing :=
  match e with
  | Entry c r =>
      match c in call A return Exc + A → option Reweighing with
      | Reweighing_init _ _ => λ r, match r with inr rw => Some rw | inl _ => None end
      | _ => λ _, None
      end r
  end.

(** A call to [Reweighing.fit]: the object, the dataset, and the trained
    object when it returned one. *)
Definition reweighing_fit_call (e : entry) : option (Reweighing * Dataset * option Reweighing) :=
  match e with
  | Entry c r =>
      match c in call A return Exc + A → option (Reweighing * Dataset * option Reweighing) with
      | Reweighing_fit rw d =>
          λ r, Some (rw, d, match r with inr rw' => Some rw' | inl _ => None end)
      | _ => λ _, None
      end r
  end.

(** The object and the dataset of a call to [Reweighing.transform]. *)
Definition reweighing_transform_args (e : entry) : option (Reweighing * Dataset) :=
  match e with
  | Entry c _ => match c with Reweighing_transform rw d => Some (rw, d) | _ => None end
  end.

End adapter.

Arguments mkSeries {_ A} _ _.
Arguments series_meta {_ A} _.
Arguments series_values {_ A} _.
Arguments Returns {_ A} a.
Arguments Raises {_ A} e.
Arguments Stuck {_ A}.

(** ** A small world to run the adapter in *)

Module Demo.

(** Operators: a step remembers the weights it was fit with; a pipeline is a
    prefix and a last step. *)
Inductive operator : Type :=
| Step (name : string) (fitted_with : option (list Z)) (trained : bool)
| Pipeline (prefix last : operator).

Record dataset : Type := mkDataset {
  dataset_labels : list Z;
  dataset_weights : list Z
}.

Definition libraries : Libraries := {|
  Exc := string;
  World := nat;
  Label := string;
  Feature := string;
  PrivilegedGroups := list string;
  NdArray := list string;
  SeriesMeta := string;
  Table := list (list Z);
  Encoder := list string;
  Converter := Z * Z * list string;
  Dataset := dataset;
  Weights := list Z;
  Reweighing := bool;
  Operator := operator;
  Prediction := list Z;
  shape := λ X, (length X, length (hd [] X));
  instance_weights := dataset_weights;
  isinstance_TrainablePipeline := λ op,
    match op with Pipeline _ _ => true | Step _ _ _ => false end
|}.

(** Every call counts; a step named ["broken"] cannot be fit; the weights
    are 2 for a favorable row and 3 for an unfavorable one. *)
Definition handler (A : Type) (c : call (H:=libraries) A) (w : nat) : (string + A) * nat :=
  (match c in call A return string + A with
   | ProtectedAttributesEncoder_init pas => inr (feature <$> pas)
   | ProtectedAttributesEncoder_transform enc X => inr X
   | _ndarray_to_series data name => inr (mkSeries (H:=libraries) "y" data)
   | _PandasToDatasetConverter_init f u pans => inr (f, u, pans)
   | _PandasToDatasetConverter_call conv X y =>
       inr (mkDataset (series_values y) ((λ _, 1) <$> series_values y))
   | Reweighing_init u p =>
       if decide (length u = 1%nat ∧ length p = 1%nat) then inr false else inl "ValueError"
   | Reweighing_fit rw d => inr true
   | Reweighing_transform rw d =>
       inr (mkDataset (dataset_labels d)
              ((λ l, if decide (l = 1) then 2 else 3) <$> dataset_labels d))
   | remove_last op =>
       match op with Pipeline p _ => inr p | Step _ _ _ => inl "AttributeError" end
   | get_last op =>
       match op with Pipeline _ l => inr l | Step _ _ _ => inl "AttributeError" end
   | Operator_fit op X y sw =>
       match op with
       | Step name _ _ =>
           if decide (name = "broken") then inl "ValueError" else inr (Step name sw true)
       | Pipeline p l => inr (Pipeline p l)
       end
   | Operator_transform op X => inr X
   | Operator_rshift op1 op2 => inr (Pipeline op1 op2)
   | Operator_predict op X => inr ((λ _, 1) <$> X)
   end, S w).

Definition X0 : list (list Z) := [[1; 30]; [0; 41]; [1; 25]].

Definition y0 : Labels (H:=libraries) :=
  pd_Series (mkSeries (H:=libraries) "label" ["yes"; "no"; "yes"]).

Definition y1 : Labels (H:=libraries) := np_ndarray (H:=libraries) ["no"; "yes"; "no"].

Definition sex : ProtectedAttribute (H:=libraries) :=
  mkProtectedAttribute (H:=libraries) "sex" ["m"].

Definition age : ProtectedAttribute (H:=libraries) :=
  mkProtectedAttribute (H:=libraries) "age" ["old"].

Definition plain : ReweighingImpl (H:=libraries) :=
  mkReweighingImpl (H:=libraries) (Step "lr" None false) ["yes"] [sex; age].

Definition piped : ReweighingImpl (H:=libraries) :=
  mkReweighingImpl (H:=libraries)
    (Pipeline (Step "scaler" None false) (Step "lr" None false)) ["yes"] [sex].

Definition broken : ReweighingImpl (H:=libraries) :=
  mkReweighingImpl (H:=libraries) (Step "broken" None false) ["yes"] [sex].

Definition globals0 : gmap string json :=
  {["_output_predict_schema" := Schemas._output_predict_schema]}.

(** Three adapters, at the addresses 1, 2 and 3. *)
Definition σ0 : PyState (H:=libraries) :=
  mkPyState (H:=libraries) (<[3%positive := broken]> (<[2%positive := piped]> {[1%positive := plain]}))
    globals0 0%nat [].

(** The runs used as examples: a plain estimator, a pipeline on numpy labels,
    an estimator that cannot be fit, and a second [fit] after the first. *)
Definition fit_plain : outcome loc * PyState (H:=libraries) :=
  fit handler 1%positive X0 y0 σ0.

Definition fit_piped : outcome loc * PyState (H:=libraries) :=
  fit handler 2%positive X0 y1 σ0.

Definition fit_broken : outcome loc * PyState (H:=libraries) :=
  fit handler 3%positive X0 y0 σ0.

Definition fit_plain_again : outcome loc * PyState (H:=libraries) :=
  fit handler 1%positive X0 y1 fit_plain.2.

Definition predict_plain : outcome (list Z) * PyState (H:=libraries) :=
  predict handler 1%positive X0 σ0.

(** A fourth adapter, made by the constructor, then fit, or asked to
    predict at once; and a prediction after the first [fit]. *)
Definition new_adapter : outcome loc * PyState (H:=libraries) :=
  __init__ (H:=libraries) (Step "svm" None false) ["yes"] [sex] σ0.

Definition fit_new : outcome loc * PyState (H:=libraries) :=
  fit handler 4%positive X0 y1 new_adapter.2.

Definition predict_new : outcome (list Z) * PyState (H:=libraries) :=
  predict handler 4%positive X0 new_adapter.2.

Definition predict_after_fit : outcome (list Z) * PyState (H:=libraries) :=
  predict handler 1%positive X0 fit_plain.2.

(** A [_categorical_fairness_properties] with the two entries the module
    reads. *)
Definition categorical_fairness_properties : list (string * json) :=
  [("favorable_labels",
    JObj [("description", JStr "Label values which are considered favorable.");
          ("type", JStr "array")]);
   ("protected_attributes",
    JObj [("description", JStr "Features for which fairness is desired.");
          ("type", JStr "array")])].

End Demo.

(** ** Properties of the adapter *)

Section adapter_properties.
Context `{Libraries}.
Variable handler : ∀ A : Type, call A → World → (Exc + A) * World.

#[local] Existing Instance M_ret.
#[local] Existing Instance M_bind.

(** Runs the statements in [Hrun] call by call: a case for each call that
    raises, with the state it leaves, and one for each way to return. *)
Ltac run_calls Hself Hrun :=
  repeat first
    [ progress (cbn [heap world log module_globals fst snd] in Hrun)
    | rewrite Hself in Hrun
    | match type of Hrun with
      | context [handler ?A ?c ?w] =>
          let r := fresh "r" in
          let w' := fresh "w" in
          let E := fresh "E" in
          destruct (handler A c w) as [[r|r] w'] eqn:E
      | context [isinstance_TrainablePipeline ?e] =>
          let E := fresh "Epipe" in
          destruct (isinstance_TrainablePipeline e) eqn:E
      end ].

Ltac unfold_statements Hrun :=
  unfold fit, predict, mbind, M_bind, mret, M_ret,
    getattr, extern, setattr_estimator in Hrun.

(** Every run of [fit] on an allocated adapter is a trace of the linear
    procedure, and leaves the heap and the module as the trace says. *)
Lemma fit_run self X y σ obj out σ' :
  heap σ !! self = Some obj →
  fit handler self X y σ = (out, σ') →
  ∃ trace o,
    linear_procedure obj X y trace o ∧
    out = outcome_of_fit self o ∧
    log σ' = log σ ++ trace ∧
    heap σ' = heap_after self obj (heap σ) o ∧
    module_globals σ' = module_globals σ.
Proof.
  intros Hself Hrun. destruct σ as [h g w l]. cbn in Hself.
  unfold_statements Hrun.
  unfold linear_procedure, encode_protected_attributes, binarize_labels,
    labels_as_series, reweighing_fit_transform, fit_final_estimator, _group_flag.
  cbn [heap world log module_globals].
  destruct y; run_calls Hself Hrun; inversion Hrun; subst; clear Hrun.
  all: cbn [heap world log module_globals].
  all: rewrite <- ?(assoc_L (++)); cbn [app].
  all: eexists _, _.
  all: split; [ | split; [ | split; [ reflexivity | ] ] ].
  all: try rewrite Epipe.
  all: repeat first [ apply call_returns | apply call_raises ]; done.
Qed.

(** Takes a trace of the linear procedure apart, call by call. *)
Ltac split_trace Htrace :=
  unfold linear_procedure, encode_protected_attributes, binarize_labels,
    labels_as_series, reweighing_fit_transform, fit_final_estimator in Htrace;
  repeat match goal with
    | Hk : (if ?b then _ else _) _ _, E : ?b = _ |- _ => rewrite E in Hk
    | Hk : then_call _ _ _ _ |- _ => inversion Hk; clear Hk; subst
    | Hk : finished _ _ _ |- _ => destruct Hk as [? ?]; simplify_eq
    end.

(** C1: every run of [fit] follows the linear procedure of the spec, in its
    order: the protected attributes are encoded, the labels binarized, the
    reweighing routine is fit on the encoded dataset and then transforms it,
    the instance weights are read off the transformed dataset, and the
    estimator (of a pipeline, its last stage) is fit with those weights.  A
    run that returns made all of these calls, each with the results of the
    calls before it. *)
Theorem fit_follows_linear_procedure self X y σ obj out σ' :
  heap σ !! self = Some obj →
  fit handler self X y σ = (out, σ') →
  ∃ trace o,
    log σ' = log σ ++ trace ∧
    linear_procedure obj X y trace o ∧
    out = outcome_of_fit self o ∧
    ∀ trained, o = Returns trained →
      ∃ encoder encoded_X labels converter encoded_data reweighing reweighing_trained
        reweighted_data final,
        trace =
          [Entry (ProtectedAttributesEncoder_init (protected_attributes obj)) (inr encoder);
           Entry (ProtectedAttributesEncoder_transform encoder X) (inr encoded_X)] ++
          match y with
          | np_ndarray a => [Entry (_ndarray_to_series a (shape X).2) (inr labels)]
          | pd_Series s => []
          end ++
          [Entry (_PandasToDatasetConverter_init 1 0 (feature <$> protected_attributes obj))
             (inr converter);
           Entry (_PandasToDatasetConverter_call converter encoded_X
                    (Series_apply (λ v, if decide (v ∈ favorable_labels obj) then 1 else 0)
                       labels))
             (inr encoded_data);
           Entry (Reweighing_init [group_dict 0 (protected_attributes obj)]
                                  [group_dict 1 (protected_attributes obj)])
             (inr reweighing);
           Entry (Reweighing_fit reweighing encoded_data) (inr reweighing_trained);
           Entry (Reweighing_transform reweighing_trained encoded_data) (inr reweighted_data)] ++
          final ∧
        (∀ s, y = pd_Series s → labels = s) ∧
        if isinstance_TrainablePipeline (estimator obj) then
          ∃ prefix last trained_prefix transformed_X trained_last,
            final =
              [Entry (remove_last (estimator obj)) (inr prefix);
               Entry (get_last (estimator obj)) (inr last);
               Entry (Operator_fit prefix X y None) (inr trained_prefix);
               Entry (Operator_transform trained_prefix X) (inr transformed_X);
               Entry (Operator_fit last transformed_X y
                        (Some (instance_weights reweighted_data)))
                 (inr trained_last);
               Entry (Operator_rshift trained_prefix trained_last) (inr trained)]
        else
          final =
            [Entry (Operator_fit (estimator obj) X y (Some (instance_weights reweighted_data)))
               (inr trained)].
Proof.
  intros Hself Hrun.
  destruct (fit_run _ _ _ _ _ _ _ Hself Hrun) as (trace & o & Htrace & Hout & Hlog & _).
  exists trace, o. split_and!; [done..|]. intros trained ->.
  destruct y as [a|s]; destruct (isinstance_TrainablePipeline (estimator obj)) eqn:Epipe;
    split_trace Htrace.
  - eexists _, _, _, _, _, _, _, _, _. split_and!; [reflexivity|done|]. cbn. eauto 10.
  - eexists _, _, _, _, _, _, _, _, _. split_and!; [reflexivity|done|]. done.
  - eexists _, _, s, _, _, _, _, _, _. split_and!; [reflexivity|by intros ? [= ->]|]. cbn. eauto 10.
  - eexists _, _, s, _, _, _, _, _, _. split_and!; [reflexivity|by intros ? [= ->]|]. done.
Qed.

(** All the ways a run of [fit] can go, each with its trace written out. *)
Ltac fit_cases Hself Hrun trace Hlog :=
  let o := fresh "o" in
  let Htrace := fresh "Htrace" in
  let Hout := fresh "Hout" in
  destruct (fit_run _ _ _ _ _ _ _ Hself Hrun) as (trace & o & Htrace & Hout & Hlog & _);
  exists trace; split; [exact Hlog|]; clear Hlog Hrun;
  match type of Htrace with
  | linear_procedure ?obj _ ?y _ _ =>
      destruct y;
      destruct (isinstance_TrainablePipeline (estimator obj)) eqn:?;
      split_trace Htrace
  end.

(** Membership in a list that is written out. *)
Ltac in_cases Hin :=
  cbn in Hin;
  repeat (apply elem_of_cons in Hin as [Hin|Hin]; [simplify_eq|]);
  try (apply elem_of_nil in Hin; destruct Hin).

(** C2: whenever [fit] calls the [fit] of an operator with the keyword
    [sample_weight], the value passed is the [instance_weights] of the
    dataset that the one call to the reweighing routine's [transform]
    returned, as it is; a run that returns made exactly one such call. *)
Theorem sample_weight_is_instance_weights self X y σ obj out σ' :
  heap σ !! self = Some obj →
  fit handler self X y σ = (out, σ') →
  ∃ trace,
    log σ' = log σ ++ trace ∧
    (∀ w, w ∈ omap sample_weight_kwarg trace →
       ∃ reweighted_data,
         omap reweighted_dataset trace = [reweighted_data] ∧
         w = instance_weights reweighted_data) ∧
    (∀ r, out = Returns r → ∃ w, omap sample_weight_kwarg trace = [w]).
Proof.
  intros Hself Hrun. fit_cases Hself Hrun trace Hlog.
  all: split; [intros w Hw; in_cases Hw; eauto | intros r' Hr; simplify_eq/=; eauto].
Qed.

(** The dict of a group has the listed features as its keys, each with the
    value of the group. *)
Lemma group_dict_lookup (v : Z) (pas : list ProtectedAttribute) (f : Feature) :
  group_dict v pas !! f = if decide (f ∈ feature <$> pas) then Some v else None.
Proof.
  unfold group_dict.
  assert (∀ d : gmap Feature Z,
    foldl (λ d pa, <[feature pa := v]> d) d pas !! f =
    if decide (f ∈ feature <$> pas) then Some v else d !! f) as Hgen.
  { induction pas as [|pa pas IH]; intros d; cbn.
    - case_decide as Hin; [by apply elem_of_nil in Hin|done].
    - rewrite IH. destruct (decide (f = feature pa)) as [->|Hne].
      + rewrite lookup_insert_eq, (decide_True (P:=_ ∈ _ :: _)) by apply list_elem_of_here.
        by destruct (decide _).
      + rewrite lookup_insert_ne by done. apply decide_ext.
        rewrite elem_of_cons. tauto. }
  rewrite Hgen. by rewrite lookup_empty.
Qed.

(** C8: whenever [fit] makes the [Reweighing] object, it passes exactly one
    unprivileged group, a dict with the listed protected features as keys
    and 0 at each, and exactly one privileged group, with the same keys and
    1 at each; a run that returns made the object once. *)
Theorem reweighing_gets_one_group_each self X y σ obj out σ' :
  heap σ !! self = Some obj →
  fit handler self X y σ = (out, σ') →
  ∃ trace,
    log σ' = log σ ++ trace ∧
    (∀ unprivileged_groups privileged_groups,
       (unprivileged_groups, privileged_groups) ∈ omap reweighing_groups trace →
       ∃ unprivileged privileged,
         unprivileged_groups = [unprivileged] ∧
         privileged_groups = [privileged] ∧
         ∀ f,
           unprivileged !! f =
             (if decide (f ∈ feature <$> protected_attributes obj) then Some 0 else None) ∧
           privileged !! f =
             (if decide (f ∈ feature <$> protected_attributes obj) then Some 1 else None)) ∧
    (∀ r, out = Returns r → length (omap reweighing_groups trace) = 1%nat).
Proof.
  intros Hself Hrun. fit_cases Hself Hrun trace Hlog.
  all: split; [intros u p Hin; in_cases Hin | intros r' Hr; by simplify_eq/=].
  all: eexists _, _; split_and!; [reflexivity..|].
  all: intros f; split; apply group_dict_lookup.
Qed.

(** C4: whenever [fit] calls the converter, the labels it passes are the
    labels of [y] (as a Series: [y] itself, or what [_ndarray_to_series]
    made of the numpy array) with every value replaced by 1 when it is among
    [favorable_labels] and by 0 when it is not; every converter is made with
    [favorable_label=1] and [unfavorable_label=0]; and a dataset handed to
    the reweighing routine is the one that converter returned.  A run that
    returns made the converter, called it, and handed its dataset to the
    routine. *)
Theorem labels_binarized_favorable_1_unfavorable_0 self X y σ obj out σ' :
  heap σ !! self = Some obj →
  fit handler self X y σ = (out, σ') →
  ∃ trace,
    log σ' = log σ ++ trace ∧
    (∀ encoded_y, encoded_y ∈ omap converter_labels trace →
       ∃ labels,
         match y with
         | pd_Series s => labels = s
         | np_ndarray _ => omap series_made trace = [labels]
         end ∧
         series_meta encoded_y = series_meta labels ∧
         series_values encoded_y =
           (λ v, if decide (v ∈ favorable_labels obj) then 1 else 0) <$> series_values labels) ∧
    (∀ favorable_label unfavorable_label converter,
       (favorable_label, unfavorable_label, converter) ∈ omap converter_made trace →
       favorable_label = 1 ∧ unfavorable_label = 0) ∧
    (∀ dataset, dataset ∈ omap reweighing_input trace →
       ∃ converter encoded_y,
         omap converter_made trace = [(1, 0, converter)] ∧
         omap dataset_made trace = [(converter, encoded_y, dataset)]) ∧
    (∀ r, out = Returns r →
       ∃ converter encoded_y dataset,
         omap converter_labels trace = [encoded_y] ∧
         omap converter_made trace = [(1, 0, converter)] ∧
         omap dataset_made trace = [(converter, encoded_y, dataset)] ∧
         omap reweighing_input trace = [dataset; dataset]).
Proof.
  intros Hself Hrun. fit_cases Hself Hrun trace Hlog.
  all: split_and!;
    [ intros ey Hin; in_cases Hin; eauto
    | intros f u c Hin; in_cases Hin; eauto
    | intros d Hin; in_cases Hin; eauto
    | intros r' Hr; simplify_eq/=; by eexists _, _, _ ].
Qed.

(** C3: when the estimator is a [TrainablePipeline] and [fit] returns, the
    run ends with these six calls: the pipeline is split into its prefix and
    its last stage, the prefix is fit on [(X, y)] without [sample_weight],
    the trained prefix transforms [X], the last stage is fit on the
    transformed [X] and [y] with [sample_weight] the instance weights of the
    reweighted dataset, and the trained prefix and the trained last stage
    are composed; no operator is fit before them, and the composition is
    what the [estimator] field holds afterwards. *)
Theorem pipeline_last_stage_gets_the_weights self X y σ obj r σ' :
  heap σ !! self = Some obj →
  isinstance_TrainablePipeline (estimator obj) = true →
  fit handler self X y σ = (Returns r, σ') →
  ∃ before reweighted_data prefix last trained_prefix transformed_X trained_last composed,
    log σ' = log σ ++ before ++
      [Entry (remove_last (estimator obj)) (inr prefix);
       Entry (get_last (estimator obj)) (inr last);
       Entry (Operator_fit prefix X y None) (inr trained_prefix);
       Entry (Operator_transform trained_prefix X) (inr transformed_X);
       Entry (Operator_fit last transformed_X y (Some (instance_weights reweighted_data)))
         (inr trained_last);
       Entry (Operator_rshift trained_prefix trained_last) (inr composed)] ∧
    omap reweighted_dataset before = [reweighted_data] ∧
    omap operator_fit_args before = [] ∧
    heap σ' =
      <[self := mkReweighingImpl composed (favorable_labels obj) (protected_attributes obj)]>
        (heap σ).
Proof.
  intros Hself Hpipe Hrun.
  destruct (fit_run _ _ _ _ _ _ _ Hself Hrun) as (trace & o & Htrace & Hout & -> & -> & _).
  destruct o; simplify_eq/=.
  destruct y; split_trace Htrace.
  - eexists [_; _; _; _; _; _; _; _], _, _, _, _, _, _, _. by split_and!.
  - eexists [_; _; _; _; _; _; _], _, _, _, _, _, _, _. by split_and!.
Qed.



(** A run of [predict] is the one call to the stored estimator's [predict]. *)
Lemma predict_run self X σ obj out σ' :
  heap σ !! self = Some obj →
  predict handler self X σ = (out, σ') →
  ∃ r w,
    handler Prediction (Operator_predict (estimator obj) X) (world σ) = (r, w) ∧
    out = match r with inl e => Raises e | inr p => Returns p end ∧
    σ' = mkPyState (heap σ) (module_globals σ) w
           (log σ ++ [Entry (Operator_predict (estimator obj) X) r]).
Proof.
  intros Hself Hrun. unfold_statements Hrun. rewrite Hself in Hrun.
  destruct (handler _ _ _) as [[e|p] w]; simplify_eq/=; by eexists _, _.
Qed.


(** C10: [predict] makes one call, the [predict] of the estimator stored in
    the adapter on [X]; what that call returns or raises is what [predict]
    returns or raises; the heap, so every field of the adapter, and the
    module are as before. *)
Theorem predict_is_the_estimators_predict self X σ obj out σ' :
  heap σ !! self = Some obj →
  predict handler self X σ = (out, σ') →
  ∃ r w,
    handler Prediction (Operator_predict (estimator obj) X) (world σ) = (r, w) ∧
    out = match r with inl e => Raises e | inr p => Returns p end ∧
    log σ' = log σ ++ [Entry (Operator_predict (estimator obj) X) r] ∧
    world σ' = w ∧
    heap σ' = heap σ ∧
    heap σ' !! self = Some obj ∧
    module_globals σ' = module_globals σ.
Proof.
  intros Hself Hrun.
  destruct (predict_run _ _ _ _ _ _ Hself Hrun) as (r & w & Hcall & -> & ->).
  exists r, w. by split_and!.
Qed.

(** A trace that ends with a result ends with the call that returned the
    trained estimator. *)
Lemma returning_trace_last obj X y (trace : list entry) (trained : Operator) :
  linear_procedure obj X y trace (Returns trained) →
  ∃ e, last trace = Some e ∧ operator_returned e = Some trained.
Proof.
  intros Htrace.
  destruct y; destruct (isinstance_TrainablePipeline (estimator obj)) eqn:?;
    split_trace Htrace; by eexists.
Qed.

(** A trace that ends with a result trained the estimator of the adapter:
    it split it when it is a pipeline, and fit it with weights when not. *)
Lemma returning_trace_trains_estimator obj X y (trace : list entry) (trained : Operator) :
  linear_procedure obj X y trace (Returns trained) →
  if isinstance_TrainablePipeline (estimator obj)
  then omap pipeline_split trace = [estimator obj; estimator obj]
  else ∃ w, omap operator_fit_args trace = [(estimator obj, X, Some w)].
Proof.
  intros Htrace.
  destruct y; destruct (isinstance_TrainablePipeline (estimator obj)) eqn:?;
    split_trace Htrace; cbn; eauto.
Qed.

(** C9: a call to [fit] that returns, returns [self]; in the heap it has
    replaced the object of [self] by one with the same [favorable_labels]
    and [protected_attributes] and with the trained estimator, which the
    last call of the run returned, as its [estimator]; every other object is
    as before.  A second call to [fit] then runs the procedure on that
    object: when it returns, it has split the trained estimator of the first
    call (a pipeline) or fit it with weights (any other operator). *)
Theorem fit_returns_self_and_stores_the_trained_estimator
    self X y X2 y2 σ obj r σ1 out2 σ2 :
  heap σ !! self = Some obj →
  fit handler self X y σ = (Returns r, σ1) →
  fit handler self X2 y2 σ1 = (out2, σ2) →
  r = self ∧
  ∃ trained trace1 last_call trace2 o2,
    let obj1 := mkReweighingImpl trained (favorable_labels obj) (protected_attributes obj) in
    log σ1 = log σ ++ trace1 ∧
    last trace1 = Some last_call ∧
    operator_returned last_call = Some trained ∧
    heap σ1 = <[self := obj1]> (heap σ) ∧
    log σ2 = log σ1 ++ trace2 ∧
    linear_procedure obj1 X2 y2 trace2 o2 ∧
    out2 = outcome_of_fit self o2 ∧
    (∀ r2, out2 = Returns r2 →
       if isinstance_TrainablePipeline trained
       then omap pipeline_split trace2 = [trained; trained]
       else ∃ w, omap operator_fit_args trace2 = [(trained, X2, Some w)]).
Proof.
  intros Hself Hrun1 Hrun2.
  destruct (fit_run _ _ _ _ _ _ _ Hself Hrun1) as (trace1 & o1 & Htrace1 & Hout1 & Hlog1 & Hheap1 & _).
  destruct o1 as [trained| |]; simplify_eq/=. split; [done|].
  assert (heap σ1 !! self =
    Some (mkReweighingImpl trained (favorable_labels obj) (protected_attributes obj))) as Hself1.
  { rewrite Hheap1. apply lookup_insert_eq. }
  destruct (fit_run _ _ _ _ _ _ _ Hself1 Hrun2) as (trace2 & o2 & Htrace2 & Hout2 & Hlog2 & _).
  destruct (returning_trace_last _ _ _ _ _ Htrace1) as (e & Hlast & He).
  exists trained, trace1, e, trace2, o2. split_and!; try done.
  intros r2 ->. destruct o2 as [trained2| |]; simplify_eq/=.
  apply (returning_trace_trains_estimator _ _ _ _ _ Htrace2).
Qed.

(** *** What the statements touch *)










(** [fit] returns whenever every call it makes returns. *)
Lemma fit_returns_when_calls_return self X y σ obj :
  (∀ (A : Type) (c : call A) w, ∃ a w', handler A c w = (inr a, w')) →
  heap σ !! self = Some obj →
  ∃ σ', fit handler self X y σ = (Returns self, σ').
Proof.
  intros Hall Hself.
  destruct (fit handler self X y σ) as [out σ'] eqn:Hrun.
  destruct σ as [h g w l]. cbn in Hself.
  unfold_statements Hrun.
  destruct y; run_calls Hself Hrun.
  all: try match goal with
    | E : handler ?A ?c ?w = (inl _, _) |- _ =>
        destruct (Hall A c w) as (? & ? & ?); congruence
    end.
  all: eexists; by simplify_eq.
Qed.

(** [ReweighingImpl(...)] gives a new object with the three fields as
    passed, and leaves the objects there are as they are. *)
Lemma init_allocates (est : Operator) (fav : list Label) (pas : list ProtectedAttribute) σ :
  ∃ self σ',
    __init__ est fav pas σ = (Returns self, σ') ∧
    heap σ !! self = None ∧
    heap σ' !! self = Some (mkReweighingImpl est fav pas) ∧
    (∀ l, l ≠ self → heap σ' !! l = heap σ !! l) ∧
    log σ' = log σ.
Proof.
  eexists _, _. split; [reflexivity|]. cbn. split_and!.
  - apply not_elem_of_dom, is_fresh.
  - apply lookup_insert_eq.
  - intros l Hl. by rewrite lookup_insert_ne.
  - done.
Qed.

(** ** Beyond the claims: what else the run of the adapter shows *)

(** X1: a [fit] that raises has written nothing: every object of the heap,
    the adapter with its configured estimator among them, and every
    module-level binding is as before the call. *)
Theorem fit_that_raises_changes_no_object self X y σ obj e σ' :
  heap σ !! self = Some obj →
  fit handler self X y σ = (Raises e, σ') →
  heap σ' = heap σ ∧ heap σ' !! self = Some obj ∧ module_globals σ' = module_globals σ.
Proof.
  intros Hself Hrun.
  destruct (fit_run _ _ _ _ _ _ _ Hself Hrun) as (trace & o & _ & Hout & _ & Hheap & Hg).
  destruct o; simplify_eq/=. by rewrite Hheap.
Qed.

(** X2: [predict] on what a returning [fit] returned makes one call, the
    [predict] of the operator that the last call of [fit] returned (the
    trained estimator, or the composed pipeline), whatever estimator the
    adapter was configured with. *)
Theorem predict_after_fit_calls_the_trained_estimator self X y X' σ obj r σ1 out σ2 :
  heap σ !! self = Some obj →
  fit handler self X y σ = (Returns r, σ1) →
  predict handler r X' σ1 = (out, σ2) →
  ∃ trace1 last_call trained res w,
    log σ1 = log σ ++ trace1 ∧
    last trace1 = Some last_call ∧
    operator_returned last_call = Some trained ∧
    handler Prediction (Operator_predict trained X') (world σ1) = (res, w) ∧
    out = match res with inl e => Raises e | inr p => Returns p end ∧
    log σ2 = log σ1 ++ [Entry (Operator_predict trained X') res] ∧
    heap σ2 = heap σ1.
Proof.
  intros Hself Hfit Hpredict.
  destruct (fit_run _ _ _ _ _ _ _ Hself Hfit) as (trace1 & o & Htrace & Hout & Hlog & Hheap & _).
  destruct o as [trained| |]; simplify_eq/=.
  destruct (returning_trace_last _ _ _ _ _ Htrace) as (last_call & Hlast & Hret).
  assert (heap σ1 !! self =
    Some (mkReweighingImpl trained (favorable_labels obj) (protected_attributes obj))) as Hself1.
  { rewrite Hheap. apply lookup_insert_eq. }
  destruct (predict_run _ _ _ _ _ _ Hself1 Hpredict) as (res & w & Hcall & -> & ->).
  by exists trace1, last_call, trained, res, w.
Qed.

(** X3: an adapter made by [ReweighingImpl(estimator, favorable_labels,
    protected_attributes)] is a new object; making it calls nothing; a [fit]
    on it runs the linear procedure on exactly the three values passed to
    the constructor; and every adapter that was there before is as it was,
    whatever the outcome. *)
Theorem new_adapter_is_fit_as_configured est fav pas X y σ self σ0 out σ' :
  __init__ est fav pas σ = (Returns self, σ0) →
  fit handler self X y σ0 = (out, σ') →
  heap σ !! self = None ∧
  (∃ trace o,
     log σ' = log σ ++ trace ∧
     linear_procedure (mkReweighingImpl est fav pas) X y trace o ∧
     out = outcome_of_fit self o) ∧
  (∀ l other, heap σ !! l = Some other → heap σ' !! l = Some other).
Proof.
  intros Hinit Hfit. unfold __init__ in Hinit. simplify_eq/=.
  set (self := fresh (dom (heap σ))) in *.
  set (σ0 := mkPyState _ _ _ _) in Hfit.
  assert (heap σ !! self = None) as Hfresh by apply not_elem_of_dom, is_fresh.
  assert (heap σ0 !! self = Some (mkReweighingImpl est fav pas)) as Hself
    by apply lookup_insert_eq.
  destruct (fit_run _ _ _ _ _ _ _ Hself Hfit) as (trace & o & Htrace & Hout & Hlog & Hheap & _).
  split_and!; [done|by exists trace, o|].
  intros l other Hl. assert (l ≠ self) as Hne by congruence.
  rewrite Hheap. destruct o; cbn; by rewrite ?lookup_insert_ne.
Qed.

(** X4: [predict] does not ask for a [fit] before it: on an adapter that was
    only constructed it makes the one call [estimator.predict(X)] on the
    estimator passed to the constructor, and its outcome is that call's. *)
Theorem predict_before_fit_calls_the_configured_estimator est fav pas X σ self σ0 out σ' :
  __init__ est fav pas σ = (Returns self, σ0) →
  predict handler self X σ0 = (out, σ') →
  ∃ res w,
    handler Prediction (Operator_predict est X) (world σ) = (res, w) ∧
    out = match res with inl e => Raises e | inr p => Returns p end ∧
    log σ' = log σ ++ [Entry (Operator_predict est X) res].
Proof.
  intros Hinit Hpredict. unfold __init__ in Hinit. simplify_eq/=.
  set (σ0 := mkPyState _ _ _ _) in Hpredict.
  assert (heap σ0 !! fresh (dom (heap σ)) = Some (mkReweighingImpl est fav pas)) as Hself
    by apply lookup_insert_eq.
  destruct (predict_run _ _ _ _ _ _ Hself Hpredict) as (res & w & Hcall & -> & ->).
  by exists res, w.
Qed.

(** X5: the estimator is trained on the data as given: every call to an
    operator's [fit] gets the [y] that [fit] was called with, not the
    binarized labels; every call to an operator's [transform] gets the [X]
    that [fit] was called with; and a [fit] that gets other features than
    [X] gets what that [transform] returned, never the encoded features. *)
Theorem estimator_is_trained_on_the_data_as_given self X y σ obj out σ' :
  heap σ !! self = Some obj →
  fit handler self X y σ = (out, σ') →
  ∃ trace,
    log σ' = log σ ++ trace ∧
    (∀ y', y' ∈ omap operator_fit_labels trace → y' = y) ∧
    (∀ op X', (op, X') ∈ omap operator_transform_args trace → X' = X) ∧
    (∀ op X' sw, (op, X', sw) ∈ omap operator_fit_args trace →
       X' = X ∨ omap operator_transformed trace = [X']).
Proof.
  intros Hself Hrun. fit_cases Hself Hrun trace Hlog.
  all: split_and!;
    [ intros y' Hin; in_cases Hin; eauto
    | intros op X' Hin; in_cases Hin; eauto
    | intros op X' sw Hin; in_cases Hin; eauto ].
Qed.

(** X6: with an estimator that is no pipeline, the only call on a lale
    operator is one [fit] of the estimator field itself, on [X], with a
    [sample_weight]: nothing is split, transformed or composed, and no
    [fit] without weights is tried. *)
Theorem plain_estimator_gets_one_weighted_fit self X y σ obj out σ' :
  heap σ !! self = Some obj →
  isinstance_TrainablePipeline (estimator obj) = false →
  fit handler self X y σ = (out, σ') →
  ∃ trace,
    log σ' = log σ ++ trace ∧
    (∀ op, op ∈ omap operator_called trace → op = estimator obj) ∧
    (∀ call, call ∈ omap operator_fit_args trace →
       ∃ w, call = (estimator obj, X, Some w)) ∧
    (length (omap operator_called trace) ≤ 1)%nat ∧
    omap operator_called trace = (λ a, a.1.1) <$> omap operator_fit_args trace ∧
    (∀ r, out = Returns r → length (omap operator_fit_args trace) = 1%nat).
Proof.
  intros Hself Hpipe Hrun. fit_cases Hself Hrun trace Hlog.
  all: try congruence.
  all: split_and!;
    [ intros op Hin; in_cases Hin; eauto
    | intros call Hin; in_cases Hin; eauto
    | cbn; lia
    | reflexivity
    | intros r' Hr; by simplify_eq/= ].
Qed.

(** X7: with a pipeline, whatever the outcome: only the estimator field is
    split; an operator that is fit without weights is the prefix that
    [remove_last] returned, fit on [X]; an operator that is fit with weights
    is the last stage that [get_last] returned, fit on what [transform]
    returned, with the instance weights of the reweighted dataset; what is
    transformed is [X], by the trained prefix; and what is composed are the
    two operators that the two calls to [fit] returned, in that order. *)
Theorem pipeline_stages_whatever_the_outcome self X y σ obj out σ' :
  heap σ !! self = Some obj →
  isinstance_TrainablePipeline (estimator obj) = true →
  fit handler self X y σ = (out, σ') →
  ∃ trace,
    log σ' = log σ ++ trace ∧
    (∀ op, op ∈ omap pipeline_split trace → op = estimator obj) ∧
    (∀ op X', (op, X', None) ∈ omap operator_fit_args trace →
       X' = X ∧ omap prefix_made trace = [op]) ∧
    (∀ op X' w, (op, X', Some w) ∈ omap operator_fit_args trace →
       omap last_made trace = [op] ∧
       omap operator_transformed trace = [X'] ∧
       ∃ reweighted_data,
         omap reweighted_dataset trace = [reweighted_data] ∧
         w = instance_weights reweighted_data) ∧
    (∀ op X', (op, X') ∈ omap operator_transform_args trace →
       X' = X ∧ ∃ rest, omap operator_fitted trace = op :: rest) ∧
    (∀ op1 op2, (op1, op2) ∈ omap operator_rshift_args trace →
       omap operator_fitted trace = [op1; op2]).
Proof.
  intros Hself Hpipe Hrun. fit_cases Hself Hrun trace Hlog.
  all: try congruence.
  all: split_and!;
    [ intros op Hin; in_cases Hin; eauto
    | intros op X' Hin; in_cases Hin; eauto
    | intros op X' w Hin; in_cases Hin; eauto
    | intros op X' Hin; in_cases Hin; eauto
    | intros op1 op2 Hin; in_cases Hin; eauto ].
Qed.

(** The keys of a group dict are the listed features. *)
Lemma group_dict_dom (v : Z) (pas : list ProtectedAttribute) :
  dom (group_dict v pas) = list_to_set (feature <$> pas).
Proof.
  apply set_eq. intros f.
  rewrite elem_of_dom, group_dict_lookup, elem_of_list_to_set.
  destruct (decide _) as [Hin|Hin]; split; try done.
Qed.

(** X8: the unprivileged and the privileged group that [fit] builds are the
    same dict exactly when no protected attribute is listed, and then both
    are the empty dict. *)
Theorem groups_coincide_only_without_protected_attributes (pas : list ProtectedAttribute) :
  (group_dict 0 pas = group_dict 1 pas ↔ pas = []) ∧
  (pas = [] → group_dict 0 pas = ∅ ∧ group_dict 1 pas = ∅) ∧
  (pas ≠ [] → group_dict 0 pas ≠ ∅ ∧ group_dict 1 pas ≠ ∅).
Proof.
  split_and!.
  - split; [|by intros ->].
    destruct pas as [|pa pas]; [done|]. intros Heq.
    assert (group_dict 0 (pa :: pas) !! feature pa = group_dict 1 (pa :: pas) !! feature pa)
      as Hlookup by (by rewrite Heq).
    rewrite !group_dict_lookup in Hlookup.
    rewrite !decide_True in Hlookup by (rewrite fmap_cons; apply list_elem_of_here).
    discriminate Hlookup.
  - by intros ->.
  - destruct pas as [|pa pas]; [done|]. intros _.
    split; intros Hempty.
    all: assert (group_dict _ (pa :: pas) !! feature pa = None) as Hlookup
      by (by rewrite Hempty).
    all: rewrite group_dict_lookup in Hlookup.
    all: rewrite decide_True in Hlookup by (rewrite fmap_cons; apply list_elem_of_here).
    all: discriminate Hlookup.
Qed.

Lemma remove_dups_length_le {A : Type} `{!EqDecision A} (l : list A) :
  (length (remove_dups l) ≤ length l)%nat.
Proof.
  induction l as [|x l IH]; cbn; [done|].
  destruct (decide_rel _ _ _); cbn; lia.
Qed.

(** X9: both groups have the same keys, the features named in
    [protected_attributes]; a feature listed more than once is one key, so
    a group has as many keys as there are distinct names in the list of
    names that the converter is given, which keeps the repetitions. *)
Theorem group_keys_are_the_distinct_names (v : Z) (pas : list ProtectedAttribute) :
  dom (group_dict v pas) = list_to_set (feature <$> pas) ∧
  dom (group_dict 0 pas) = dom (group_dict 1 pas) ∧
  size (group_dict v pas) = length (remove_dups (feature <$> pas)) ∧
  (size (group_dict v pas) ≤ length (feature <$> pas))%nat ∧
  (NoDup (feature <$> pas) → size (group_dict v pas) = length pas).
Proof.
  assert (size (group_dict v pas) = length (remove_dups (feature <$> pas))) as Hsize.
  { rewrite <- size_dom, group_dict_dom.
    rewrite <- (size_list_to_set (C:=gset Feature) (remove_dups (feature <$> pas)))
      by apply NoDup_remove_dups.
    f_equal. apply set_eq. intros f.
    by rewrite !elem_of_list_to_set, elem_of_remove_dups. }
  split_and!.
  - apply group_dict_dom.
  - by rewrite !group_dict_dom.
  - done.
  - rewrite Hsize. apply remove_dups_length_le.
  - intros Hnodup. rewrite <- size_dom, group_dict_dom.
    rewrite size_list_to_set by done. apply length_fmap.
Qed.

(** X10: labels that come as a pandas Series are used as they are, no
    conversion is called; labels that come as a numpy array are converted by
    at most one call to [_ndarray_to_series], on that array, with the number
    of columns of [X] as the name, and by exactly one when [fit] returns. *)
Theorem labels_are_converted_only_from_numpy self X y σ obj out σ' :
  heap σ !! self = Some obj →
  fit handler self X y σ = (out, σ') →
  ∃ trace,
    log σ' = log σ ++ trace ∧
    (∀ s, y = pd_Series s → omap series_conversion trace = []) ∧
    (∀ a conversion, y = np_ndarray a → conversion ∈ omap series_conversion trace →
       conversion = (a, (shape X).2)) ∧
    (length (omap series_conversion trace) ≤ 1)%nat ∧
    (∀ a r, y = np_ndarray a → out = Returns r →
       omap series_conversion trace = [(a, (shape X).2)]).
Proof.
  intros Hself Hrun. fit_cases Hself Hrun trace Hlog.
  all: split_and!;
    [ intros s' Hy; by simplify_eq/=
    | intros a' c Hy Hin; simplify_eq/=; in_cases Hin; eauto
    | cbn; lia
    | intros a' r' Hy Hr; by simplify_eq/= ].
Qed.

(** X11: the reweighing routine is used on one dataset throughout: the
    object that is fit is the one the constructor returned, it is fit on the
    dataset the converter returned, and [transform] is called on the object
    that [fit] returned and on the very dataset it was fit on. *)
Theorem reweighing_transforms_what_it_was_fit_on self X y σ obj out σ' :
  heap σ !! self = Some obj →
  fit handler self X y σ = (out, σ') →
  ∃ trace,
    log σ' = log σ ++ trace ∧
    (∀ rw d res, (rw, d, res) ∈ omap reweighing_fit_call trace →
       omap reweighing_made trace = [rw] ∧
       ∃ converter encoded_y, omap dataset_made trace = [(converter, encoded_y, d)]) ∧
    (∀ rw d, (rw, d) ∈ omap reweighing_transform_args trace →
       ∃ rw0,
         omap reweighing_made trace = [rw0] ∧
         omap reweighing_fit_call trace = [(rw0, d, Some rw)]).
Proof.
  intros Hself Hrun. fit_cases Hself Hrun trace Hlog.
  all: split_and!;
    [ intros rw d res Hin; in_cases Hin; eauto
    | intros rw d Hin; in_cases Hin; eauto ].
Qed.

(** X12: no lale operator is called, so nothing is split, fit, transformed
    or composed, before the reweighing routine's [transform] has returned:
    a run that ends earlier has not touched the estimator. *)
Theorem no_operator_is_called_before_the_weights_exist self X y σ obj out σ' :
  heap σ !! self = Some obj →
  fit handler self X y σ = (out, σ') →
  ∃ trace,
    log σ' = log σ ++ trace ∧
    (omap reweighted_dataset trace = [] → omap operator_called trace = []) ∧
    (∀ op, op ∈ omap operator_called trace →
       ∃ reweighted_data, omap reweighted_dataset trace = [reweighted_data]).
Proof.
  intros Hself Hrun. fit_cases Hself Hrun trace Hlog.
  all: split; [by cbn|intros op Hin; in_cases Hin; eauto].
Qed.

(** X13: between the two table conventions: the encoder is made with the
    [protected_attributes] field and transforms the [X] that [fit] was
    called with; the converter is made with the feature names of
    [protected_attributes], in list order and one for each entry, and is
    called on the features that the encoder returned. *)
Theorem encoder_output_feeds_the_converter self X y σ obj out σ' :
  heap σ !! self = Some obj →
  fit handler self X y σ = (out, σ') →
  ∃ trace,
    log σ' = log σ ++ trace ∧
    (∀ encoder X', (encoder, X') ∈ omap encoder_transform_args trace →
       X' = X ∧ omap encoder_made trace = [(protected_attributes obj, encoder)]) ∧
    (∀ names, names ∈ omap converter_names trace →
       names = feature <$> protected_attributes obj ∧
       length names = length (protected_attributes obj)) ∧
    (∀ encoded_X, encoded_X ∈ omap converter_features trace →
       omap encoded_features trace = [encoded_X]).
Proof.
  intros Hself Hrun. fit_cases Hself Hrun trace Hlog.
  all: split_and!;
    [ intros enc X' Hin; in_cases Hin; eauto
    | intros names Hin; in_cases Hin; (split; [done|apply length_fmap])
    | intros eX Hin; in_cases Hin; eauto ].
Qed.

End adapter_properties.

(** C5: once the module is loaded (the two entries it reads from
    [_categorical_fairness_properties] exist), the hyperparameter schema is
    one object constraint that requires exactly [estimator],
    [favorable_labels] and [protected_attributes], declares exactly these
    three properties and forbids any other; the schema of the input of
    [fit] requires [X] and [y], that of the input of [predict] requires
    [X]; the schema of the output of [predict] allows an array of numbers,
    an array of strings or an array of booleans; and the combined schema
    holds these four under [properties]. *)
Theorem schemas_form_the_contract
    (cfp : list (string * json)) (favorable_labels protected_attributes : json) :
  dict_getitem cfp "favorable_labels" = Some favorable_labels →
  dict_getitem cfp "protected_attributes" = Some protected_attributes →
  ∃ hyperparams constraint properties combined,
    Schemas._hyperparams_schema cfp = Some hyperparams ∧
    json_getitem hyperparams "allOf" = Some (JArr [constraint]) ∧
    json_getitem constraint "type" = Some (JStr "object") ∧
    json_getitem constraint "required" =
      Some (JArr [JStr "estimator"; JStr "favorable_labels"; JStr "protected_attributes"]) ∧
    json_getitem constraint "additionalProperties" = Some (JBool false) ∧
    json_getitem constraint "properties" = Some properties ∧
    json_keys properties = ["estimator"; "favorable_labels"; "protected_attributes"] ∧
    json_getitem properties "favorable_labels" = Some favorable_labels ∧
    json_getitem properties "protected_attributes" = Some protected_attributes ∧
    json_getitem Schemas._input_fit_schema "required" = Some (JArr [JStr "X"; JStr "y"]) ∧
    json_getitem Schemas._input_predict_schema "required" = Some (JArr [JStr "X"]) ∧
    json_getitem Schemas._output_predict_schema "anyOf" =
      Some (JArr
        [JObj [("type", JStr "array"); ("items", JObj [("type", JStr "number")])];
         JObj [("type", JStr "array"); ("items", JObj [("type", JStr "string")])];
         JObj [("type", JStr "array"); ("items", JObj [("type", JStr "boolean")])]]) ∧
    Schemas._combined_schemas cfp = Some combined ∧
    json_getitem combined "properties" =
      Some (JObj [("hyperparams", hyperparams);
                  ("input_fit", Schemas._input_fit_schema);
                  ("input_predict", Schemas._input_predict_schema);
                  ("output_predict", Schemas._output_predict_schema)]).
Proof.
  intros Hfav Hprot.
  unfold Schemas._combined_schemas, Schemas._hyperparams_schema.
  rewrite Hfav, Hprot. cbn [mbind option_bind].
  eexists _, _, _, _. split_and!; reflexivity.
Qed.

(** ** The theorems at work in the small world *)

#[local] Existing Instance Demo.libraries.

Lemma schemas_form_the_contract_witness :
  ∃ hyperparams,
    Schemas._hyperparams_schema Demo.categorical_fairness_properties = Some hyperparams ∧
    ∃ constraint,
      json_getitem hyperparams "allOf" = Some (JArr [constraint]) ∧
      json_getitem constraint "additionalProperties" = Some (JBool false).
Proof.
  destruct (schemas_form_the_contract Demo.categorical_fairness_properties _ _
              eq_refl eq_refl)
    as (hyperparams & constraint & properties & combined & Hh & Hall & _ & _ & Hadd & _).
  exists hyperparams. split; [exact Hh|]. exists constraint. split; [exact Hall|exact Hadd].
Defined.

(** The runs of the small world that return, and the one that raises. *)
Lemma fit_plain_returns :
  fit Demo.handler 1%positive Demo.X0 Demo.y0 Demo.σ0 = (Returns 1%positive, Demo.fit_plain.2).
Proof. vm_compute. reflexivity. Qed.

Lemma fit_piped_returns :
  fit Demo.handler 2%positive Demo.X0 Demo.y1 Demo.σ0 = (Returns 2%positive, Demo.fit_piped.2).
Proof. vm_compute. reflexivity. Qed.

Lemma fit_broken_raises :
  fit Demo.handler 3%positive Demo.X0 Demo.y0 Demo.σ0 = (Raises "ValueError", Demo.fit_broken.2).
Proof. vm_compute. reflexivity. Qed.

Lemma fit_follows_linear_procedure_witness :
  ∃ trace trained,
    log Demo.fit_piped.2 = log Demo.σ0 ++ trace ∧
    linear_procedure Demo.piped Demo.X0 Demo.y1 trace (Returns trained) ∧
    length trace = 14%nat.
Proof.
  destruct (fit_follows_linear_procedure Demo.handler 2%positive Demo.X0 Demo.y1 Demo.σ0
              Demo.piped _ _ eq_refl fit_piped_returns)
    as (trace & o & Hlog & Htrace & Hout & Hcalls).
  destruct o as [trained|e|]; [|discriminate Hout..].
  destruct (Hcalls trained eq_refl)
    as (enc & eX & labels & conv & ds & rw & rwt & ds' & final & Heq & _ & Hfinal).
  destruct Hfinal as (prefix & last & tp & tX & tl & ->).
  exists trace, trained. split; [exact Hlog|]. split; [exact Htrace|].
  rewrite Heq. reflexivity.
Defined.

Lemma sample_weight_is_instance_weights_witness :
  ∃ (trace : list (entry (H:=Demo.libraries))) w reweighted_data,
    log Demo.fit_plain.2 = log Demo.σ0 ++ trace ∧
    omap sample_weight_kwarg trace = [w] ∧
    omap reweighted_dataset trace = [reweighted_data] ∧
    w = Demo.dataset_weights reweighted_data.
Proof.
  destruct (sample_weight_is_instance_weights Demo.handler 1%positive Demo.X0 Demo.y0 Demo.σ0
              Demo.plain _ _ eq_refl fit_plain_returns)
    as (trace & Hlog & Hpassed & Honce).
  destruct (Honce _ eq_refl) as (w & Hw).
  destruct (Hpassed w) as (d & Hd & Heq).
  { rewrite Hw. apply list_elem_of_here. }
  exists trace, w, d. split; [exact Hlog|]. split; [exact Hw|]. split; [exact Hd|exact Heq].
Defined.

Lemma pipeline_last_stage_gets_the_weights_witness :
  ∃ composed,
    heap Demo.fit_piped.2 =
      <[2%positive := mkReweighingImpl composed ["yes"] [Demo.sex]]> (heap Demo.σ0).
Proof.
  destruct (pipeline_last_stage_gets_the_weights Demo.handler 2%positive Demo.X0 Demo.y1
              Demo.σ0 Demo.piped _ _ eq_refl eq_refl fit_piped_returns)
    as (before & d & prefix & last & tp & tX & tl & composed & _ & _ & _ & Hheap).
  exists composed. exact Hheap.
Defined.

Lemma labels_binarized_favorable_1_unfavorable_0_witness :
  ∃ (trace : list (entry (H:=Demo.libraries))) converter encoded_y dataset labels,
    log Demo.fit_piped.2 = log Demo.σ0 ++ trace ∧
    omap converter_made trace = [(1, 0, converter)] ∧
    omap dataset_made trace = [(converter, encoded_y, dataset)] ∧
    omap reweighing_input trace = [dataset; dataset] ∧
    omap series_made trace = [labels] ∧
    series_values encoded_y =
      (λ v, if decide (v ∈ ["yes"]) then 1 else 0) <$> series_values labels.
Proof.
  destruct (labels_binarized_favorable_1_unfavorable_0 Demo.handler 2%positive Demo.X0
              Demo.y1 Demo.σ0 Demo.piped _ _ eq_refl fit_piped_returns)
    as (trace & Hlog & Hlabels & _ & _ & Hret).
  destruct (Hret _ eq_refl) as (conv & ey & ds & Hey & Hconv & Hds & Hin).
  destruct (Hlabels ey) as (labels & Hmade & _ & Hvalues).
  { rewrite Hey. apply list_elem_of_here. }
  exists trace, conv, ey, ds, labels. repeat (split; [assumption|]). exact Hvalues.
Defined.


Lemma reweighing_gets_one_group_each_witness :
  ∃ (trace : list (entry (H:=Demo.libraries))) unprivileged privileged,
    log Demo.fit_plain.2 = log Demo.σ0 ++ trace ∧
    omap reweighing_groups trace = [([unprivileged], [privileged])] ∧
    unprivileged !! "sex" = Some 0 ∧ unprivileged !! "age" = Some 0 ∧
    unprivileged !! "zip" = None ∧
    privileged !! "sex" = Some 1 ∧ privileged !! "age" = Some 1 ∧
    privileged !! "zip" = None.
Proof.
  destruct (reweighing_gets_one_group_each Demo.handler 1%positive Demo.X0 Demo.y0 Demo.σ0
              Demo.plain _ _ eq_refl fit_plain_returns)
    as (trace & Hlog & Hgroups & Honce).
  specialize (Honce _ eq_refl).
  destruct (omap reweighing_groups trace) as [|[u p] [|? ?]] eqn:Hcalls; try discriminate Honce.
  destruct (Hgroups u p) as (unpriv & priv & -> & -> & Hkeys); [apply list_elem_of_here|].
  exists trace, unpriv, priv. split; [exact Hlog|]. split; [exact Hcalls|].
  repeat split; apply Hkeys.
Defined.

Lemma fit_returns_self_and_stores_the_trained_estimator_witness :
  ∃ (trained : Demo.operator) (trace2 : list (entry (H:=Demo.libraries))),
    heap Demo.fit_plain.2 =
      <[1%positive := mkReweighingImpl trained ["yes"] [Demo.sex; Demo.age]]> (heap Demo.σ0) ∧
    log Demo.fit_plain_again.2 = log Demo.fit_plain.2 ++ trace2 ∧
    (∀ r2, Demo.fit_plain_again.1 = Returns r2 →
       if isinstance_TrainablePipeline trained
       then omap pipeline_split trace2 = [trained; trained]
       else ∃ w, omap operator_fit_args trace2 = [(trained, Demo.X0, Some w)]).
Proof.
  destruct (fit_returns_self_and_stores_the_trained_estimator Demo.handler 1%positive
              Demo.X0 Demo.y0 Demo.X0 Demo.y1 Demo.σ0 Demo.plain _ _ _ _
              eq_refl fit_plain_returns (surjective_pairing Demo.fit_plain_again))
    as (_ & trained & trace1 & e & trace2 & o2 & _ & _ & _ & Hheap & Hlog2 & _ & _ & Hagain).
  exists trained, trace2. split; [exact Hheap|]. split; [exact Hlog2|exact Hagain].
Defined.

Lemma predict_is_the_estimators_predict_witness :
  ∃ r w,
    Demo.handler (list Z) (Operator_predict (Demo.Step "lr" None false) Demo.X0) 0%nat = (r, w) ∧
    Demo.predict_plain.1 = match r with inl e => Raises e | inr p => Returns p end ∧
    heap Demo.predict_plain.2 = heap Demo.σ0.
Proof.
  destruct (predict_is_the_estimators_predict Demo.handler 1%positive Demo.X0 Demo.σ0
              Demo.plain _ _ eq_refl (surjective_pairing Demo.predict_plain))
    as (r & w & Hcall & Hout & _ & _ & Hheap & _).
  exists r, w. split; [exact Hcall|]. split; [exact Hout|exact Hheap].
Defined.

(** What the small world computes: the weights reach the estimator, a
    pipeline keeps an unweighted prefix, and a failing estimator's exception
    is the outcome of [fit], with the adapter left as it was. *)
Example fit_plain_result :
  Demo.fit_plain.1 = Returns 1%positive ∧
  estimator <$> heap Demo.fit_plain.2 !! 1%positive = Some (Demo.Step "lr" (Some [2; 3; 2]) true).
Proof. by vm_compute. Qed.

Example fit_piped_result :
  Demo.fit_piped.1 = Returns 2%positive ∧
  estimator <$> heap Demo.fit_piped.2 !! 2%positive =
    Some (Demo.Pipeline (Demo.Step "scaler" None true) (Demo.Step "lr" (Some [3; 2; 3]) true)).
Proof. by vm_compute. Qed.

Example fit_broken_result :
  (fit Demo.handler 3%positive Demo.X0 Demo.y0 Demo.σ0).1 = Raises "ValueError" ∧
  heap (fit Demo.handler 3%positive Demo.X0 Demo.y0 Demo.σ0).2 = heap Demo.σ0.
Proof. by vm_compute. Qed.

Example fit_unallocated_is_stuck :
  (fit Demo.handler 4%positive Demo.X0 Demo.y0 Demo.σ0).1 = Stuck.
Proof. by vm_compute. Qed.

(** ** Beyond the claims: the schemas *)


(** X15: the schemas agree with each other: the labels [y] that [fit]
    accepts have the very schema of what [predict] returns; [fit] and
    [predict] accept the same features [X]; and each of the two input
    schemas is an object that declares exactly the properties it requires
    and forbids every other. *)
Theorem input_and_output_schemas_agree :
  (∃ properties,
     json_getitem Schemas._input_fit_schema "properties" = Some properties ∧
     json_getitem properties "y" = Some Schemas._output_predict_schema ∧
     ∃ properties',
       json_getitem Schemas._input_predict_schema "properties" = Some properties' ∧
       json_getitem properties "X" = json_getitem properties' "X" ∧
       is_Some (json_getitem properties "X") ∧
       JArr (JStr <$> json_keys properties) = JArr [JStr "X"; JStr "y"] ∧
       json_getitem Schemas._input_fit_schema "required" =
         Some (JArr (JStr <$> json_keys properties)) ∧
       json_getitem Schemas._input_predict_schema "required" =
         Some (JArr (JStr <$> json_keys properties'))) ∧
  json_getitem Schemas._input_fit_schema "additionalProperties" = Some (JBool false) ∧
  json_getitem Schemas._input_predict_schema "additionalProperties" = Some (JBool false) ∧
  json_getitem Schemas._input_fit_schema "type" = Some (JStr "object") ∧
  json_getitem Schemas._input_predict_schema "type" = Some (JStr "object").
Proof.
  split_and!; try reflexivity.
  eexists. split; [reflexivity|]. split; [reflexivity|].
  eexists. split_and!; try reflexivity. by eexists.
Qed.

(** ** Beyond the claims: at work in the small world *)

Lemma new_adapter_made :
  __init__ (H:=Demo.libraries) (Demo.Step "svm" None false) ["yes"] [Demo.sex] Demo.σ0 =
    (Returns 4%positive, Demo.new_adapter.2).
Proof. vm_compute. reflexivity. Qed.

Lemma fit_that_raises_changes_no_object_witness :
  heap Demo.fit_broken.2 = heap Demo.σ0 ∧
  heap Demo.fit_broken.2 !! 3%positive = Some Demo.broken.
Proof.
  destruct (fit_that_raises_changes_no_object Demo.handler 3%positive Demo.X0 Demo.y0 Demo.σ0
              Demo.broken _ _ eq_refl fit_broken_raises)
    as (Hheap & Hself & _).
  split; [exact Hheap|exact Hself].
Defined.

Lemma predict_after_fit_calls_the_trained_estimator_witness :
  ∃ (trained : Demo.operator) res w,
    Demo.handler (list Z) (Operator_predict trained Demo.X0) (world Demo.fit_plain.2) = (res, w) ∧
    Demo.predict_after_fit.1 = match res with inl e => Raises e | inr p => Returns p end ∧
    log Demo.predict_after_fit.2 =
      log Demo.fit_plain.2 ++ [Entry (Operator_predict trained Demo.X0) res].
Proof.
  destruct (predict_after_fit_calls_the_trained_estimator Demo.handler 1%positive
              Demo.X0 Demo.y0 Demo.X0 Demo.σ0 Demo.plain _ _ _ _
              eq_refl fit_plain_returns (surjective_pairing Demo.predict_after_fit))
    as (trace1 & last_call & trained & res & w & _ & _ & _ & Hcall & Hout & Hlog & _).
  exists trained, res, w. split; [exact Hcall|]. split; [exact Hout|exact Hlog].
Defined.

Lemma new_adapter_is_fit_as_configured_witness :
  heap Demo.σ0 !! 4%positive = None ∧
  (∃ trace o,
     log Demo.fit_new.2 = log Demo.σ0 ++ trace ∧
     linear_procedure
       (mkReweighingImpl (H:=Demo.libraries) (Demo.Step "svm" None false) ["yes"] [Demo.sex])
       Demo.X0 Demo.y1 trace o ∧
     Demo.fit_new.1 = outcome_of_fit 4%positive o) ∧
  heap Demo.fit_new.2 !! 1%positive = Some Demo.plain.
Proof.
  destruct (new_adapter_is_fit_as_configured Demo.handler (Demo.Step "svm" None false)
              ["yes"] [Demo.sex] Demo.X0 Demo.y1 Demo.σ0 4%positive _ _ _
              new_adapter_made (surjective_pairing Demo.fit_new))
    as (Hfresh & Hrun & Hothers).
  split; [exact Hfresh|]. split; [exact Hrun|].
  apply Hothers. reflexivity.
Defined.

Lemma predict_before_fit_calls_the_configured_estimator_witness :
  ∃ res w,
    Demo.handler (list Z) (Operator_predict (Demo.Step "svm" None false) Demo.X0) 0%nat =
      (res, w) ∧
    Demo.predict_new.1 = match res with inl e => Raises e | inr p => Returns p end.
Proof.
  destruct (predict_before_fit_calls_the_configured_estimator Demo.handler
              (Demo.Step "svm" None false) ["yes"] [Demo.sex] Demo.X0 Demo.σ0 4%positive _ _ _
              new_adapter_made (surjective_pairing Demo.predict_new))
    as (res & w & Hcall & Hout & _).
  exists res, w. split; [exact Hcall|exact Hout].
Defined.

Lemma estimator_is_trained_on_the_data_as_given_witness :
  ∃ trace : list (entry (H:=Demo.libraries)),
    log Demo.fit_piped.2 = log Demo.σ0 ++ trace ∧
    (∀ y', y' ∈ omap operator_fit_labels trace → y' = Demo.y1) ∧
    (∀ op X', (op, X') ∈ omap operator_transform_args trace → X' = Demo.X0).
Proof.
  destruct (estimator_is_trained_on_the_data_as_given Demo.handler 2%positive Demo.X0 Demo.y1
              Demo.σ0 Demo.piped _ _ eq_refl fit_piped_returns)
    as (trace & Hlog & Hlabels & Htransform & _).
  exists trace. split; [exact Hlog|]. split; [exact Hlabels|exact Htransform].
Defined.

Lemma plain_estimator_gets_one_weighted_fit_witness :
  ∃ trace : list (entry (H:=Demo.libraries)),
    log Demo.fit_plain.2 = log Demo.σ0 ++ trace ∧
    length (omap operator_fit_args trace) = 1%nat ∧
    omap operator_called trace = (λ a, a.1.1) <$> omap operator_fit_args trace ∧
    (∀ op, op ∈ omap operator_called trace → op = Demo.Step "lr" None false).
Proof.
  destruct (plain_estimator_gets_one_weighted_fit Demo.handler 1%positive Demo.X0 Demo.y0
              Demo.σ0 Demo.plain _ _ eq_refl eq_refl fit_plain_returns)
    as (trace & Hlog & Hcalled & _ & _ & Hsame & Honce).
  exists trace. split; [exact Hlog|]. split; [exact (Honce _ eq_refl)|].
  split; [exact Hsame|exact Hcalled].
Defined.

Lemma pipeline_stages_whatever_the_outcome_witness :
  ∃ trace : list (entry (H:=Demo.libraries)),
    log Demo.fit_piped.2 = log Demo.σ0 ++ trace ∧
    (∀ op, op ∈ omap pipeline_split trace →
       op = Demo.Pipeline (Demo.Step "scaler" None false) (Demo.Step "lr" None false)) ∧
    (∀ op1 op2, (op1, op2) ∈ omap operator_rshift_args trace →
       omap operator_fitted trace = [op1; op2]).
Proof.
  destruct (pipeline_stages_whatever_the_outcome Demo.handler 2%positive Demo.X0 Demo.y1
              Demo.σ0 Demo.piped _ _ eq_refl eq_refl fit_piped_returns)
    as (trace & Hlog & Hsplit & _ & _ & _ & Hcomposed).
  exists trace. split; [exact Hlog|]. split; [exact Hsplit|exact Hcomposed].
Defined.

Lemma labels_are_converted_only_from_numpy_witness :
  ∃ trace : list (entry (H:=Demo.libraries)),
    log Demo.fit_piped.2 = log Demo.σ0 ++ trace ∧
    omap series_conversion trace = [(["no"; "yes"; "no"], 2%nat)].
Proof.
  destruct (labels_are_converted_only_from_numpy Demo.handler 2%positive Demo.X0 Demo.y1
              Demo.σ0 Demo.piped _ _ eq_refl fit_piped_returns)
    as (trace & Hlog & _ & _ & _ & Hnumpy).
  exists trace. split; [exact Hlog|]. exact (Hnumpy _ _ eq_refl eq_refl).
Defined.

Lemma reweighing_transforms_what_it_was_fit_on_witness :
  ∃ trace : list (entry (H:=Demo.libraries)),
    log Demo.fit_plain.2 = log Demo.σ0 ++ trace ∧
    (∀ rw d, (rw, d) ∈ omap reweighing_transform_args trace →
       ∃ rw0,
         omap reweighing_made trace = [rw0] ∧
         omap reweighing_fit_call trace = [(rw0, d, Some rw)]).
Proof.
  destruct (reweighing_transforms_what_it_was_fit_on Demo.handler 1%positive Demo.X0 Demo.y0
              Demo.σ0 Demo.plain _ _ eq_refl fit_plain_returns)
    as (trace & Hlog & _ & Htransform).
  exists trace. split; [exact Hlog|exact Htransform].
Defined.

Lemma no_operator_is_called_before_the_weights_exist_witness :
  ∃ trace : list (entry (H:=Demo.libraries)),
    log Demo.fit_broken.2 = log Demo.σ0 ++ trace ∧
    (∀ op, op ∈ omap operator_called trace →
       ∃ reweighted_data, omap reweighted_dataset trace = [reweighted_data]).
Proof.
  destruct (no_operator_is_called_before_the_weights_exist Demo.handler 3%positive Demo.X0
              Demo.y0 Demo.σ0 Demo.broken _ _ eq_refl fit_broken_raises)
    as (trace & Hlog & _ & Hcalled).
  exists trace. split; [exact Hlog|exact Hcalled].
Defined.

Lemma encoder_output_feeds_the_converter_witness :
  ∃ trace : list (entry (H:=Demo.libraries)),
    log Demo.fit_plain.2 = log Demo.σ0 ++ trace ∧
    (∀ names, names ∈ omap converter_names trace →
       names = ["sex"; "age"] ∧ length names = 2%nat) ∧
    (∀ encoded_X, encoded_X ∈ omap converter_features trace →
       omap encoded_features trace = [encoded_X]).
Proof.
  destruct (encoder_output_feeds_the_converter Demo.handler 1%positive Demo.X0 Demo.y0
              Demo.σ0 Demo.plain _ _ eq_refl fit_plain_returns)
    as (trace & Hlog & _ & Hnames & Hfeatures).
  exists trace. split; [exact Hlog|]. split; [exact Hnames|exact Hfeatures].
Defined.
